(** * alx-polly: the session-and-authorization core

    A shallow embedding of the three source files of the core:

    - the Auth Action Layer ([login], [register], [logout],
      [getCurrentUser], [getSession]), server functions that talk to the
      Supabase client;
    - the login page ([LoginPage], [handleSubmit]), a React component with
      two pieces of hook state, [error] and [loading];
    - the poll card ([PollActions], [handleDelete]) with its ownership
      guard.

    Asynchronous functions are written as programs over an effect
    signature: every [await] on something outside the function is a [Vis]
    node whose continuation is the rest of the function.  A program is run
    against a handler, which stands for the collaborator on the other
    side (the identity provider, the browser). *)

From stdpp Require Import base option list strings gmap.

Local Open Scope string_scope.

(** ** JavaScript values *)

Module Js.

(** Truthiness of a value of type [string | null]: [null] and the empty
    string are falsy, every other string is truthy. *)
Definition truthy (v : option string) : bool :=
  match v with
  | None => false
  | Some s => negb (String.eqb s "")
  end.

(** What [a && b && <element/>] can evaluate to inside JSX. *)
Inductive node (A : Type) : Type :=
| null
| false_
| element (a : A).
Arguments null {A}.
Arguments false_ {A}.
Arguments element {A} a.

(** React renders nothing for [null] and for [false]. *)
Definition rendered {A} (n : node A) : option A :=
  match n with
  | element a => Some a
  | null | false_ => None
  end.

End Js.

(** ** Programs with effects *)

(** How an awaited promise settles. *)
Inductive Settled (A : Type) : Type :=
| Fulfilled (a : A)
| Rejected (reason : string).
Arguments Fulfilled {A} a.
Arguments Rejected {A} reason.

Inductive Prog (E : Type → Type) (R : Type) : Type :=
| Ret (r : R)
| Vis {X : Type} (e : E X) (k : X → Prog E R).
Arguments Ret {E R} r.
Arguments Vis {E R X} e k.

Fixpoint Prog_bind {E A B} (f : A → Prog E B) (p : Prog E A) : Prog E B :=
  match p with
  | Ret a => f a
  | Vis e k => Vis e (λ x, Prog_bind f (k x))
  end.

#[global] Instance Prog_mret E : MRet (Prog E) := λ _ a, Ret a.
#[global] Instance Prog_mbind E : MBind (Prog E) := λ _ _ f p, Prog_bind f p.

(** One call to the outside world; the program resumes with its answer. *)
Definition call {E X} (e : E X) : Prog E X := Vis e Ret.

(** A call that was made, whatever its answer type. *)
Inductive Invocation (E : Type → Type) : Type :=
| Invoke {X : Type} (e : E X).
Arguments Invoke {E X} e.

(** The collaborator: it answers every call from its own state.  A
    rejected call aborts the program (no function of the core has a
    [try]/[catch]). *)
Definition Handler (E : Type → Type) (S : Type) : Type :=
  ∀ X, E X → S → Settled X * S.

Fixpoint run {E S R} (h : Handler E S) (p : Prog E R) (s : S) : Settled R * S :=
  match p with
  | Ret r => (Fulfilled r, s)
  | Vis e k =>
      match h _ e s with
      | (Fulfilled x, s') => run h (k x) s'
      | (Rejected why, s') => (Rejected why, s')
      end
  end.

(** The calls a run makes, in order (a rejected call included). *)
Fixpoint trace {E S R} (h : Handler E S) (p : Prog E R) (s : S)
  : list (Invocation E) :=
  match p with
  | Ret _ => []
  | Vis e k =>
      Invoke e ::
      match h _ e s with
      | (Fulfilled x, s') => trace h (k x) s'
      | (Rejected _, _) => []
      end
  end.

(** ** Data model *)

(** A JavaScript object used as a string-keyed dictionary of
    [string | null] values (the profile metadata). *)
Abbreviation JsObject := (gmap string (option string)).

Module User.
Record t := mk {
  id : string;
  email : option string;
  user_metadata : JsObject;
}.
End User.

Module Session.
Record t := mk {
  access_token : string;
  user : User.t;
}.
End Session.

Module AuthError.
Record t := mk {
  message : string;
  status : option nat;
}.
End AuthError.

(** [LoginFormData] and [RegisterFormData].  TypeScript's [string] is
    erased at run time: the fields hold whatever [FormData.get] returned,
    a string or [null]. *)
Module LoginFormData.
Record t := mk {
  email : option string;
  password : option string;
}.
End LoginFormData.

Module RegisterFormData.
Record t := mk {
  name : option string;
  email : option string;
  password : option string;
}.
End RegisterFormData.

(** The result shape of the credential actions, [{error: string | null}]. *)
Module AuthResult.
Record t := mk {
  error : option string;
}.
End AuthResult.

(** ** The Supabase client, as the actions see it *)

Module Supabase.

Record SignInWithPasswordCredentials := {
  signin_email : option string;
  signin_password : option string;
}.

Record SignUpOptions := {
  data : JsObject;
}.

Record SignUpCredentials := {
  signup_email : option string;
  signup_password : option string;
  options : SignUpOptions;
}.

(** [{ data: { user, session }, error }] *)
Record AuthResponse := {
  auth_user : option User.t;
  auth_session : option Session.t;
  auth_error : option AuthError.t;
}.

(** [{ error }] *)
Record SignOutResponse := {
  signout_error : option AuthError.t;
}.

(** [{ data: { user }, error }] *)
Record UserResponse := {
  user : option User.t;
  user_error : option AuthError.t;
}.

(** [{ data: { session }, error }] *)
Record SessionResponse := {
  session : option Session.t;
  session_error : option AuthError.t;
}.

(** The calls the Auth Action Layer awaits. *)
Inductive E : Type → Type :=
| createClient : E unit
| signInWithPassword (credentials : SignInWithPasswordCredentials) : E AuthResponse
| signUp (credentials : SignUpCredentials) : E AuthResponse
| signOut : E SignOutResponse
| getUser : E UserResponse
| getSession : E SessionResponse.

(** The calls that may change the identity provider's state. *)
Definition is_mutation (i : Invocation E) : bool :=
  match i with
  | Invoke (signInWithPassword _) | Invoke (signUp _) | Invoke signOut => true
  | Invoke _ => false
  end.

End Supabase.

(** ** The Auth Action Layer *)

Module AuthActions.
Import Supabase.

Definition login (data : LoginFormData.t) : Prog E AuthResult.t :=
  supabase ← call createClient;
  response ← call (signInWithPassword
                     {| signin_email := LoginFormData.email data;
                        signin_password := LoginFormData.password data |});
  match auth_error response with
  | Some error => Ret {| AuthResult.error := Some (AuthError.message error) |}
  | None => Ret {| AuthResult.error := None |}
  end.

Definition register (data : RegisterFormData.t) : Prog E AuthResult.t :=
  supabase ← call createClient;
  response ← call (signUp
                     {| signup_email := RegisterFormData.email data;
                        signup_password := RegisterFormData.password data;
                        options :=
                          {| data := {[ "name" := RegisterFormData.name data ]} |} |});
  match auth_error response with
  | Some error => Ret {| AuthResult.error := Some (AuthError.message error) |}
  | None => Ret {| AuthResult.error := None |}
  end.

Definition logout : Prog E AuthResult.t :=
  supabase ← call createClient;
  response ← call signOut;
  match signout_error response with
  | Some error => Ret {| AuthResult.error := Some (AuthError.message error) |}
  | None => Ret {| AuthResult.error := None |}
  end.

Definition getCurrentUser : Prog E (option User.t) :=
  supabase ← call createClient;
  response ← call getUser;
  Ret (user response).

Definition getSession : Prog E (option Session.t) :=
  supabase ← call createClient;
  response ← call Supabase.getSession;
  Ret (session response).

End AuthActions.

(** ** The login page *)

Module LoginPage.

(** [FormData]: the named entries of a form, in document order. *)
Definition FormData := list (string * string).

(** [formData.get(name)]: the first entry of that name, or [null]. *)
Fixpoint FormData_get (name : string) (formData : FormData) : option string :=
  match formData with
  | [] => None
  | (n, v) :: rest => if String.eqb n name then Some v else FormData_get name rest
  end.

(** The submit event; [currentTarget] is the form, given by its entries. *)
Record FormEvent := {
  currentTarget : FormData;
}.

(** How the browser leaves the page.  [window.location.href = url] loads
    the document at [url] from scratch; a client-side router push swaps
    the view inside the running document. *)
Inductive Navigation :=
| FullLoad (url : string)
| RouterPush (url : string).

(** What [handleSubmit] does to the world around it. *)
Inductive E : Type → Type :=
| preventDefault : E unit
| setLoading (value : bool) : E unit
| setError (value : option string) : E unit
| login (data : LoginFormData.t) : E AuthResult.t
| set_window_location_href (url : string) : E unit.

(** [handleSubmit] from its [await] on: what it does with the result of
    [login].  [result?.error] is tested for truthiness. *)
Definition handleSubmit_resumed (result : AuthResult.t) : Prog E unit :=
  if Js.truthy (AuthResult.error result) then
    _ ← call (setError (AuthResult.error result));
    call (setLoading false)
  else
    call (set_window_location_href "/polls").

(** The fields [handleSubmit] reads from the form. *)
Definition credentials (formData : FormData) : LoginFormData.t :=
  let email := FormData_get "email" formData in
  let password := FormData_get "password" formData in
  {| LoginFormData.email := email; LoginFormData.password := password |}.

Definition handleSubmit (event : FormEvent) : Prog E unit :=
  _ ← call preventDefault;
  _ ← call (setLoading true);
  _ ← call (setError None);
  let formData := currentTarget event in
  result ← call (login (credentials formData));
  handleSubmit_resumed result.

(** The page: the two [useState] cells, and around them the browser's
    side of the story: the calls to [login] made so far, the handlers
    suspended at their [await], and the navigations performed. *)
Record Page := {
  error : option string;
  loading : bool;
  login_calls : list LoginFormData.t;
  pending : list (AuthResult.t → Prog E unit);
  navigations : list Navigation;
}.

(** [useState<string | null>(null)], [useState(false)]. *)
Definition initial : Page :=
  {| error := None; loading := false;
     login_calls := []; pending := []; navigations := [] |}.

(** Runs a handler until it returns or suspends at [await login(...)].
    State setters and the location assignment take effect at once; the
    call to [login] is recorded and the rest of the handler is parked. *)
Fixpoint exec (p : Prog E unit) (page : Page) : Page :=
  match p with
  | Ret _ => page
  | Vis e k =>
      match e in E X return (X → Prog E unit) → Page with
      | preventDefault => λ k, exec (k ()) page
      | setLoading value => λ k,
          exec (k ()) {| error := error page; loading := value;
                         login_calls := login_calls page;
                         pending := pending page;
                         navigations := navigations page |}
      | setError value => λ k,
          exec (k ()) {| error := value; loading := loading page;
                         login_calls := login_calls page;
                         pending := pending page;
                         navigations := navigations page |}
      | login data => λ k,
          {| error := error page; loading := loading page;
             login_calls := login_calls page ++ [data];
             pending := pending page ++ [k];
             navigations := navigations page |}
      | set_window_location_href url => λ k,
          exec (k ()) {| error := error page; loading := loading page;
                         login_calls := login_calls page;
                         pending := pending page;
                         navigations := navigations page ++ [FullLoad url] |}
      end k
  end.

(** What the component returns for the current state: the error
    paragraph ([{error && <p>{error}</p>}]), the submit button
    ([disabled={loading}], with its label) and the registration link. *)
Record View := {
  error_paragraph : option string;
  button_disabled : bool;
  button_label : string;
  register_href : string;
}.

Definition render (page : Page) : View :=
  {| error_paragraph := if Js.truthy (error page) then error page else None;
     button_disabled := loading page;
     button_label := if loading page then "Logging in..." else "Login";
     register_href := "/register" |}.

(** What can happen to the page.

    [UserSubmits form]: the user activates the form's submit button, by a
    click or by pressing Enter in a field (implicit submission goes
    through the default button).  A disabled button does not activate,
    so [onSubmit] runs only when the rendered button is enabled.

    The view is rendered from the state before the next event is
    dispatched (React applies the updates made in a submit handler
    before it returns to the browser).

    [LoginSettles n outcome]: the [n]-th parked call to [login] settles. *)
Inductive Event :=
| UserSubmits (form : FormData)
| LoginSettles (n : nat) (outcome : Settled AuthResult.t).

Definition step (page : Page) (ev : Event) : Page :=
  match ev with
  | UserSubmits form =>
      if button_disabled (render page) then page
      else exec (handleSubmit {| currentTarget := form |}) page
  | LoginSettles n outcome =>
      match pending page !! n with
      | None => page
      | Some k =>
          let page' := {| error := error page; loading := loading page;
                          login_calls := login_calls page;
                          pending := delete n (pending page);
                          navigations := navigations page |} in
          match outcome with
          | Fulfilled result => exec (k result) page'
          | Rejected _ => page'
          end
      end
  end.

Definition steps (page : Page) (evs : list Event) : Page :=
  foldl step page evs.

(** The page once the user has submitted [form] and the call to [login]
    made for it (the one parked last) has returned [result]. *)
Definition settled (page : Page) (form : FormData) (result : AuthResult.t) : Page :=
  steps page [UserSubmits form;
              LoginSettles (length (pending page)) (Fulfilled result)].

End LoginPage.

(** ** The poll card *)

Module PollActions.

(** An element of [options: any[]]; the card only counts them. *)
Inductive any :=
| any_null
| any_string (s : string)
| any_object (o : JsObject).

Record Poll := {
  id : string;
  question : string;
  options : list any;
  user_id : string;
}.

(** What [handleDelete] asks of the browser and of the poll actions. *)
Inductive E : Type → Type :=
| confirm (message : string) : E bool
| deletePoll (id : string) : E unit
| window_location_reload : E unit.

(** The text of the blocking yes/no prompt. *)
Definition prompt : string := "Are you sure you want to delete this poll?".

Definition handleDelete (poll : Poll) : Prog E unit :=
  answer ← call (confirm prompt);
  if answer : bool then
    _ ← call (deletePoll (id poll));
    call window_location_reload
  else
    Ret ().

(** The guard of the action bar, [user && user.id === poll.user_id],
    by its truthiness: [null] is falsy, otherwise the comparison decides. *)
Definition canModify (user : option User.t) (poll : Poll) : bool :=
  match user with
  | None => false
  | Some u => String.eqb (User.id u) (user_id poll)
  end.

(** The action bar: the Edit link and the Delete button. *)
Record ActionBar := {
  edit_href : string;
  delete_onClick : Prog E unit;
}.

(** What the component returns: the link around the card, the question,
    the option count, and the value of
    [user && user.id === poll.user_id && (<div>...</div>)]. *)
Record Card := {
  href : string;
  heading : string;
  option_count : nat;
  actions : Js.node ActionBar;
}.

Definition PollActions (user : option User.t) (poll : Poll) : Card :=
  {| href := "/polls/" ++ id poll;
     heading := question poll;
     option_count := length (options poll);
     actions :=
       match user with
       | None => Js.null
       | Some u =>
           if String.eqb (User.id u) (user_id poll) then
             Js.element {| edit_href := "/polls/" ++ id poll ++ "/edit";
                           delete_onClick := handleDelete poll |}
           else Js.false_
       end |}.

(** The calls of a trace that reach the poll actions or reload the page. *)
Definition is_deletePoll (i : Invocation E) : bool :=
  match i with
  | Invoke (deletePoll _) => true
  | Invoke _ => false
  end.

Definition is_reload (i : Invocation E) : bool :=
  match i with
  | Invoke window_location_reload => true
  | Invoke _ => false
  end.

(** A browser in which the user's answers to the prompts are scripted:
    [confirm] consumes the next answer (Cancel when none is left); the
    state records the polls deleted and the reloads. *)
Record Browser := {
  answers : list bool;
  deleted : list string;
  reloads : nat;
}.

Definition browser : Handler E Browser :=
  λ X e,
    match e in E X return Browser → Settled X * Browser with
    | confirm _ => λ b,
        (Fulfilled (default false (head (answers b))),
         {| answers := tail (answers b); deleted := deleted b;
            reloads := reloads b |})
    | deletePoll poll_id => λ b,
        (Fulfilled (),
         {| answers := answers b; deleted := deleted b ++ [poll_id];
            reloads := reloads b |})
    | window_location_reload => λ b,
        (Fulfilled (),
         {| answers := answers b; deleted := deleted b;
            reloads := S (reloads b) |})
    end.

End PollActions.

(** ** A reference identity provider *)

Module Backend.
Import Supabase.

(** An account of the reference provider: the user record and the
    password it was created with. *)
Record Account := {
  account_user : User.t;
  account_password : string;
}.

Record t := {
  accounts : gmap string Account;
  current : option Session.t;
}.

Definition empty : t := {| accounts := ∅; current := None |}.

Definition failure (message : string) : AuthResponse :=
  {| auth_user := None; auth_session := None;
     auth_error := Some {| AuthError.message := message;
                           AuthError.status := Some 400 |} |}.

Definition open_session (email : string) (u : User.t) : Session.t :=
  {| Session.access_token := "token:" ++ email; Session.user := u |}.

Definition sign_in (c : SignInWithPasswordCredentials) (b : t)
  : Settled AuthResponse * t :=
  match signin_email c, signin_password c with
  | Some email, Some password =>
      match accounts b !! email with
      | Some a =>
          if String.eqb password (account_password a) then
            let s := open_session email (account_user a) in
            (Fulfilled {| auth_user := Some (account_user a);
                          auth_session := Some s; auth_error := None |},
             {| accounts := accounts b; current := Some s |})
          else (Fulfilled (failure "Invalid login credentials"), b)
      | None => (Fulfilled (failure "Invalid login credentials"), b)
      end
  | _, _ => (Fulfilled (failure "Invalid login credentials"), b)
  end.

Definition sign_up (c : SignUpCredentials) (b : t)
  : Settled AuthResponse * t :=
  match signup_email c, signup_password c with
  | Some email, Some password =>
      match accounts b !! email with
      | Some _ => (Fulfilled (failure "User already registered"), b)
      | None =>
          let u := {| User.id := "user:" ++ email; User.email := Some email;
                      User.user_metadata := data (options c) |} in
          let s := open_session email u in
          (Fulfilled {| auth_user := Some u; auth_session := Some s;
                        auth_error := None |},
           {| accounts := <[email := {| account_user := u;
                                        account_password := password |}]>
                            (accounts b);
              current := Some s |})
      end
  | _, _ => (Fulfilled (failure "Signup requires a valid password"), b)
  end.

Definition sign_out (b : t) : Settled SignOutResponse * t :=
  (Fulfilled {| signout_error := None |},
   {| accounts := accounts b; current := None |}).

Definition get_user (b : t) : Settled UserResponse * t :=
  match current b with
  | Some s => (Fulfilled {| user := Some (Session.user s); user_error := None |}, b)
  | None =>
      (Fulfilled {| user := None;
                    user_error := Some {| AuthError.message := "Auth session missing!";
                                          AuthError.status := Some 400 |} |}, b)
  end.

Definition get_session (b : t) : Settled SessionResponse * t :=
  (Fulfilled {| session := current b; session_error := None |}, b).

(** Modelled from the spec: the Credential Backend Adapter (the Supabase
    service behind [createClient]), which is not part of the sources.  It
    provides password sign-in, sign-up with attachable profile metadata,
    sign-out, current-user fetch and current-session fetch, each either
    succeeding or producing a human-readable error string; a session
    exists after a successful sign-in or sign-up and until sign-out. *)
Definition adapter : Handler E t :=
  λ X e,
    match e in E X return t → Settled X * t with
    | createClient => λ b, (Fulfilled (), b)
    | signInWithPassword c => sign_in c
    | signUp c => sign_up c
    | signOut => sign_out
    | getUser => get_user
    | getSession => get_session
    end.

End Backend.

(** ** The page and the action together *)

Module EndToEnd.
Import LoginPage.

(** One attempt, start to end.  The page imports [login] from the Auth
    Action Layer: the call [handleSubmit] makes is served by running
    [AuthActions.login] on the submitted fields against the provider, and
    the parked handler resumes with how that run settled.  When the
    button is disabled no handler runs and no action is called. *)
Definition attempt {S} (h : Handler Supabase.E S) (form : FormData)
    (world : Page * S) : Page * S :=
  let (page, s) := world in
  if button_disabled (render page) then (page, s)
  else
    let submitted := step page (UserSubmits form) in
    let (outcome, s') := run h (AuthActions.login (credentials form)) s in
    (step submitted (LoginSettles (List.length (pending page)) outcome), s').

End EndToEnd.

(** ** Sample data

    The scenarios of the spec: Ada's registration, log-in attempts with a
    right and a wrong password, a viewer and a poll, a user who cancels
    the deletion prompt. *)

Section Samples.
Import Supabase AuthActions.

Definition ada : RegisterFormData.t :=
  {| RegisterFormData.name := Some "Ada";
     RegisterFormData.email := Some "a@x.com";
     RegisterFormData.password := Some "secret" |}.

(** The reference provider after Ada has registered and signed out. *)
Definition with_ada : Backend.t :=
  (run Backend.adapter (_ ← register ada; logout) Backend.empty).2.

Definition attempt (password : string) : LoginFormData.t :=
  {| LoginFormData.email := Some "a@x.com";
     LoginFormData.password := Some password |}.

Definition login_form (password : string) : LoginPage.FormData :=
  [("email", "a@x.com"); ("password", password)].

Definition viewer (id : string) : option User.t :=
  Some {| User.id := id; User.email := None; User.user_metadata := ∅ |}.

Definition poll_of (owner : string) : PollActions.Poll :=
  {| PollActions.id := "p7"; PollActions.question := "Tabs or spaces?";
     PollActions.options := [PollActions.any_string "tabs";
                             PollActions.any_string "spaces"];
     PollActions.user_id := owner |}.

Definition cancelling : PollActions.Browser :=
  {| PollActions.answers := [false]; PollActions.deleted := [];
     PollActions.reloads := 0 |}.

(** A user who accepts the deletion prompt. *)
Definition accepting : PollActions.Browser :=
  {| PollActions.answers := [true]; PollActions.deleted := [];
     PollActions.reloads := 0 |}.

(** The provider's verdict on a wrong password. *)
Definition invalid_credentials : AuthResult.t :=
  {| AuthResult.error := Some "Invalid login credentials" |}.

End Samples.

(** * Properties *)

(** ** Programs *)

Lemma run_call {E S R X} (h : Handler E S) (e : E X) (k : X → Prog E R) s :
  run h (x ← call e; k x) s =
  match h _ e s with
  | (Fulfilled x, s') => run h (k x) s'
  | (Rejected why, s') => (Rejected why, s')
  end.
Proof. reflexivity. Qed.

Lemma trace_call {E S R X} (h : Handler E S) (e : E X) (k : X → Prog E R) s :
  trace h (x ← call e; k x) s =
  Invoke e ::
  match h _ e s with
  | (Fulfilled x, s') => trace h (k x) s'
  | (Rejected _, _) => []
  end.
Proof. reflexivity. Qed.

(** ** The ownership guard *)

Section OwnershipGuard.
Import PollActions.

Lemma canModify_spec user poll :
  canModify user poll = true ↔ ∃ u, user = Some u ∧ User.id u = user_id poll.
Proof.
  destruct user as [u|]; simpl.
  - rewrite String.eqb_eq. split; [eauto | intros (? & [= <-] & ?); done].
  - split; [done | intros (? & [=] & _)].
Qed.

(** C1. The action bar (Edit, Delete) is gated by [canModify]: it is
    rendered exactly when the guard is true; the guard is false when the
    user is null, false when [user.id] differs from the poll's owner id,
    and true exactly when a user is present and the two ids are equal. *)
Theorem ownership_guard_exhaustive (user : option User.t) (poll : Poll) :
  (is_Some (Js.rendered (actions (PollActions user poll)))
     ↔ canModify user poll = true)
  ∧ (user = None → canModify user poll = false)
  ∧ (∀ u, user = Some u → User.id u ≠ user_id poll →
          canModify user poll = false)
  ∧ (canModify user poll = true
       ↔ ∃ u, user = Some u ∧ User.id u = user_id poll).
Proof.
  split; [|split; [|split]].
  - destruct user as [u|]; simpl.
    + destruct (String.eqb (User.id u) (user_id poll)); simpl;
        split; (done || eauto || intros [? [=]]).
    + split; [intros [? [=]] | done].
  - intros ->. reflexivity.
  - intros u -> Hne. simpl. by apply String.eqb_neq.
  - apply canModify_spec.
Qed.

(** The scenario of the spec: viewer 1 on a poll of owner 2, then of
    owner 1. *)
Example guard_scenario :
  let viewer := Some {| User.id := "1"; User.email := None;
                        User.user_metadata := ∅ |} in
  let poll owner := {| id := "p"; question := "q"; options := [];
                       user_id := owner |} in
  Js.rendered (actions (PollActions viewer (poll "2"))) = None
  ∧ is_Some (Js.rendered (actions (PollActions viewer (poll "1")))).
Proof. split; [reflexivity | eexists; reflexivity]. Qed.

End OwnershipGuard.

(** ** Deleting a poll *)

Section Deletion.
Import PollActions.
Context {S : Type} (h : Handler E S).

(** C9. [deletePoll] is called only after the blocking prompt answered
    yes: every run of [handleDelete] opens with the prompt, a [deletePoll]
    (or a reload) in its trace means the prompt answered [true], and when
    it answers [false] the prompt is the only thing that happens. *)
Theorem delete_requires_confirmation (poll : Poll) (s : S) :
  (∃ rest, trace h (handleDelete poll) s = Invoke (confirm prompt) :: rest)
  ∧ (existsb is_deletePoll (trace h (handleDelete poll) s) = true →
       (h _ (confirm prompt) s).1 = Fulfilled true)
  ∧ (existsb is_reload (trace h (handleDelete poll) s) = true →
       (h _ (confirm prompt) s).1 = Fulfilled true)
  ∧ ((h _ (confirm prompt) s).1 = Fulfilled false →
       trace h (handleDelete poll) s = [Invoke (confirm prompt)]
       ∧ run h (handleDelete poll) s = (Fulfilled (), (h _ (confirm prompt) s).2)).
Proof.
  unfold handleDelete, prompt. rewrite trace_call, run_call.
  destruct (h bool _ s) as [[[]|why] s1]; simpl;
    repeat split; try done; eauto.
Qed.

End Deletion.

(** With a user who cancels, the scripted browser deletes nothing and
    does not reload; with one who accepts, it deletes that poll and
    reloads once. *)
Example delete_scenario :
  let poll := {| PollActions.id := "p7"; PollActions.question := "q";
                 PollActions.options := []; PollActions.user_id := "1" |} in
  let fresh answer := {| PollActions.answers := [answer];
                         PollActions.deleted := [];
                         PollActions.reloads := 0 |} in
  let after answer :=
    (run PollActions.browser (PollActions.handleDelete poll) (fresh answer)).2 in
  (PollActions.deleted (after false), PollActions.reloads (after false)) = ([], 0)
  ∧ (PollActions.deleted (after true), PollActions.reloads (after true)) = (["p7"], 1).
Proof. split; reflexivity. Qed.

(** ** The Auth Action Layer *)

Section AuthActionLayer.
Import Supabase AuthActions.
Context {S : Type} (h : Handler E S).

(** C2. [login] hands the provider's verdict on, and nothing else: when
    the client is created and the password sign-in answers, [login]
    returns [{error: m}] with [m] the provider's message, unchanged, if
    the answer carries an error, and [{error: null}] if it carries none;
    and every result [login] returns arises this way. *)
Theorem login_result (data : LoginFormData.t) (s : S) :
  let credentials := {| signin_email := LoginFormData.email data;
                        signin_password := LoginFormData.password data |} in
  (∀ s1 response s2,
      h _ createClient s = (Fulfilled (), s1) →
      h _ (signInWithPassword credentials) s1 = (Fulfilled response, s2) →
      ∃ result,
        run h (login data) s = (Fulfilled result, s2)
        ∧ (∀ e, auth_error response = Some e →
                result = {| AuthResult.error := Some (AuthError.message e) |})
        ∧ (auth_error response = None →
                result = {| AuthResult.error := None |}))
  ∧ (∀ result s2,
      run h (login data) s = (Fulfilled result, s2) →
      ∃ s1 response,
        h _ createClient s = (Fulfilled (), s1)
        ∧ h _ (signInWithPassword credentials) s1 = (Fulfilled response, s2)
        ∧ AuthResult.error result = AuthError.message <$> auth_error response).
Proof.
  intros credentials. subst credentials. unfold login. rewrite run_call. split.
  - intros s1 response s2 -> . rewrite run_call. intros ->.
    destruct (auth_error response) as [e|]; simpl;
      eexists; (split; [reflexivity|]); split; congruence.
  - intros result s2.
    destruct (h _ createClient s) as [[[]|why] s1]; [|done].
    rewrite run_call.
    destruct (h _ (signInWithPassword _) s1) as [[response|why] s2'] eqn:Hs;
      [|done].
    destruct (auth_error response) as [e|] eqn:He; simpl; intros [= <- <-];
      exists s1, response; rewrite Hs, He; done.
Qed.

(** C7. [logout] fails exactly when the provider's sign-out does: when
    the client is created and the sign-out answers, [logout] returns
    [{error: null}] if and only if the answer carries no error, and
    [{error: message}] with the provider's message otherwise; it never
    turns an answer into a rejection.  On the reference provider, where
    signing out without a session succeeds, [logout] without a session
    returns [{error: null}]. *)
Theorem logout_result (s : S) :
  (∀ s1 response s2,
      h _ createClient s = (Fulfilled (), s1) →
      h _ signOut s1 = (Fulfilled response, s2) →
      ∃ result,
        run h logout s = (Fulfilled result, s2)
        ∧ (AuthResult.error result = None ↔ signout_error response = None)
        ∧ (∀ e, signout_error response = Some e →
                result = {| AuthResult.error := Some (AuthError.message e) |}))
  ∧ (∀ b, Backend.current b = None →
          (run Backend.adapter logout b).1
          = Fulfilled {| AuthResult.error := None |}).
Proof.
  split.
  - intros s1 response s2 H1 H2. unfold logout.
    rewrite run_call, H1, run_call, H2.
    destruct (signout_error response) as [e|]; simpl;
      eexists; (split; [reflexivity|]); split; (done || congruence).
  - reflexivity.
Qed.

(** C8. [getCurrentUser] and [getSession] only read: neither ever makes
    a sign-in, sign-up or sign-out call; each returns the [user] (the
    [session]) of the provider's answer whatever error comes with it, so
    a [null] there is returned, not thrown; where the provider's reads
    leave its state alone, so do they.  On the reference provider both
    leave the state as it was, and return [null] when no session exists. *)
Theorem reads_are_pure (s : S) :
  (existsb is_mutation (trace h getCurrentUser s) = false
   ∧ existsb is_mutation (trace h AuthActions.getSession s) = false)
  ∧ (∀ response,
      h _ createClient s = (Fulfilled (), s) →
      h _ getUser s = (Fulfilled response, s) →
      run h getCurrentUser s = (Fulfilled (user response), s))
  ∧ (∀ response,
      h _ createClient s = (Fulfilled (), s) →
      h _ Supabase.getSession s = (Fulfilled response, s) →
      run h AuthActions.getSession s = (Fulfilled (session response), s))
  ∧ (∀ b,
      (run Backend.adapter getCurrentUser b).2 = b
      ∧ (run Backend.adapter AuthActions.getSession b).2 = b
      ∧ (Backend.current b = None →
           run Backend.adapter getCurrentUser b = (Fulfilled None, b)
           ∧ run Backend.adapter AuthActions.getSession b = (Fulfilled None, b))).
Proof.
  split; [|split; [|split]].
  - unfold getCurrentUser, AuthActions.getSession. rewrite !trace_call.
    split.
    + destruct (h _ createClient s) as [[[]|?] s1]; [|done].
      rewrite trace_call. by destruct (h _ getUser s1) as [[?|?] ?].
    + destruct (h _ createClient s) as [[[]|?] s1]; [|done].
      rewrite trace_call.
      by destruct (h _ Supabase.getSession s1) as [[?|?] ?].
  - intros response H1 H2. unfold getCurrentUser.
    by rewrite run_call, H1, run_call, H2.
  - intros response H1 H2. unfold AuthActions.getSession.
    by rewrite run_call, H1, run_call, H2.
  - intros b. unfold getCurrentUser, AuthActions.getSession.
    rewrite !run_call. simpl. unfold Backend.get_user.
    destruct (Backend.current b) as [ses|] eqn:Hc; simpl; rewrite ?Hc;
      repeat split; done.
Qed.

(** C6. [register] makes one call to [supabase.auth], the sign-up, and
    the display name travels in it as [options.data.name]; nothing
    follows it.  On the reference provider, after a registration that
    returned [{error: null}] the account's user record holds that name
    under [name], and [getCurrentUser] returns that record. *)
Theorem register_attaches_name (data : RegisterFormData.t) (s : S) :
  let credentials :=
    {| signup_email := RegisterFormData.email data;
       signup_password := RegisterFormData.password data;
       options := {| Supabase.data := {[ "name" := RegisterFormData.name data ]} |} |} in
  Supabase.data (options credentials) !! "name" = Some (RegisterFormData.name data)
  ∧ trace h (register data) s
    = Invoke createClient ::
      match h _ createClient s with
      | (Fulfilled _, _) => [Invoke (signUp credentials)]
      | (Rejected _, _) => []
      end
  ∧ (∀ b b',
      run Backend.adapter (register data) b
      = (Fulfilled {| AuthResult.error := None |}, b') →
      ∃ email u,
        RegisterFormData.email data = Some email
        ∧ Backend.account_user <$> Backend.accounts b' !! email = Some u
        ∧ User.user_metadata u !! "name" = Some (RegisterFormData.name data)
        ∧ run Backend.adapter getCurrentUser b' = (Fulfilled (Some u), b')).
Proof.
  intros credentials. subst credentials. split; [|split].
  - apply lookup_singleton_eq.
  - unfold register. rewrite trace_call. f_equal.
    destruct (h _ createClient s) as [[[]|?] s1]; [|done].
    rewrite trace_call. f_equal.
    destruct (h _ (signUp _) s1) as [[response|?] ?]; [|done].
    by destruct (auth_error response).
  - intros b b'. unfold register. rewrite !run_call. simpl.
    unfold Backend.sign_up. simpl.
    destruct (RegisterFormData.email data) as [email|]; [|done].
    destruct (RegisterFormData.password data) as [password|]; [|done].
    destruct (Backend.accounts b !! email); [done|]. simpl.
    intros [= <-]. eexists email, _. split; [done|].
    unfold Backend.get_user. cbn [Backend.accounts Backend.current].
    rewrite lookup_insert_eq. simpl. split; [reflexivity|].
    split; [apply lookup_singleton_eq | reflexivity].
Qed.

End AuthActionLayer.

(** ** The login flow *)

Section LoginFlow.
Import LoginPage.
Local Open Scope list_scope.

(** The page while the call made for [form] is in flight. *)
Lemma submit_when_enabled (page : Page) (form : FormData) :
  loading page = false →
  step page (UserSubmits form)
  = {| error := None; loading := true;
       login_calls := login_calls page ++ [credentials form];
       pending := pending page ++ [handleSubmit_resumed];
       navigations := navigations page |}.
Proof. intros H. unfold step, render. simpl. rewrite H. reflexivity. Qed.

Lemma submit_when_disabled (page : Page) (form : FormData) :
  loading page = true → step page (UserSubmits form) = page.
Proof. intros H. unfold step, render. simpl. by rewrite H. Qed.

Lemma steps_cons (page : Page) (ev : Event) (evs : list Event) :
  steps page (ev :: evs) = steps (step page ev) evs.
Proof. reflexivity. Qed.

Lemma resubmissions_ignored (page : Page) (forms : list FormData) :
  loading page = true → steps page (UserSubmits <$> forms) = page.
Proof.
  intros H. induction forms as [|form forms IH]; [done|].
  rewrite fmap_cons, steps_cons. by rewrite submit_when_disabled.
Qed.

(** The call made last is the last one parked. *)
Lemma settle_last (page : Page) (k : AuthResult.t → Prog E unit)
    (result : AuthResult.t) e l c n :
  step {| error := e; loading := l; login_calls := c;
          pending := pending page ++ [k]; navigations := n |}
       (LoginSettles (List.length (pending page)) (Fulfilled result))
  = exec (k result)
      {| error := e; loading := l; login_calls := c;
         pending := pending page; navigations := n |}.
Proof.
  unfold step. cbn [pending error loading login_calls navigations].
  rewrite list_lookup_middle by done.
  replace (delete (List.length (pending page)) (pending page ++ [k]))
    with (pending page); [done|].
  induction (pending page) as [|? ? IH]; simpl; [done | by rewrite <- IH].
Qed.

Lemma settled_failure (page : Page) (form : FormData) (result : AuthResult.t) :
  loading page = false →
  Js.truthy (AuthResult.error result) = true →
  settled page form result
  = {| error := AuthResult.error result; loading := false;
       login_calls := login_calls page ++ [credentials form];
       pending := pending page; navigations := navigations page |}.
Proof.
  intros Hl Ht. unfold settled. rewrite !steps_cons.
  rewrite submit_when_enabled, settle_last by done.
  unfold handleSubmit_resumed. rewrite Ht. reflexivity.
Qed.

Lemma settled_success (page : Page) (form : FormData) (result : AuthResult.t) :
  loading page = false →
  Js.truthy (AuthResult.error result) = false →
  settled page form result
  = {| error := None; loading := true;
       login_calls := login_calls page ++ [credentials form];
       pending := pending page;
       navigations := navigations page ++ [FullLoad "/polls"] |}.
Proof.
  intros Hl Ht. unfold settled. rewrite !steps_cons.
  rewrite submit_when_enabled, settle_last by done.
  unfold handleSubmit_resumed. rewrite Ht. reflexivity.
Qed.

(** With nothing in flight and the button disabled, no event changes the
    page. *)
Lemma quiescent (page : Page) (evs : list Event) :
  loading page = true → pending page = [] → steps page evs = page.
Proof.
  intros Hl Hp. induction evs as [|ev evs IH]; [done|].
  rewrite steps_cons.
  replace (step page ev) with page; [done|].
  destruct ev as [form|n outcome].
  - by rewrite submit_when_disabled.
  - unfold step. by rewrite Hp.
Qed.

Lemma steps_snoc (page : Page) (evs : list Event) (ev : Event) :
  steps page (evs ++ [ev]) = step (steps page evs) ev.
Proof. unfold steps. by rewrite foldl_app. Qed.

(** One submission in flight at a time: on every page reached from the
    initial one, either nothing is parked, or exactly the rest of one
    [handleSubmit] is, and then the button is disabled. *)
Lemma at_most_one_in_flight (evs : list Event) :
  let page := steps initial evs in
  pending page = []
  ∨ (pending page = [handleSubmit_resumed] ∧ loading page = true).
Proof.
  simpl. induction evs as [|ev evs IH] using rev_ind; [by left|].
  rewrite steps_snoc. set (page := steps initial evs) in *.
  destruct ev as [form|n outcome].
  - destruct (bool_decide (loading page = true)) eqn:Hl.
    + apply bool_decide_eq_true in Hl. by rewrite submit_when_disabled.
    + apply bool_decide_eq_false, not_true_is_false in Hl.
      rewrite submit_when_enabled by done. right.
      destruct IH as [-> | [_ ?]]; [done | congruence].
  - destruct IH as [Hp | [Hp Hl]]; unfold step; rewrite Hp.
    + by left.
    + destruct n as [|n]; simpl; [left | by right].
      destruct outcome as [result|why]; [|done].
      unfold handleSubmit_resumed.
      by destruct (Js.truthy (AuthResult.error result)).
Qed.

(** In particular a page at rest has nothing parked. *)
Lemma at_rest_nothing_pending (evs : list Event) :
  loading (steps initial evs) = false → pending (steps initial evs) = [].
Proof.
  intros Hl. destruct (at_most_one_in_flight evs) as [? | [_ ?]];
    [done | congruence].
Qed.

End LoginFlow.

Section LoginFlowClaims.
Import LoginPage.
Local Open Scope list_scope.

(** The handler has no guard of its own: run twice, it calls [login]
    twice.  What keeps a second submission out while the first is in
    flight is the disabled button of [render]. *)
Remark handleSubmit_unguarded (page : Page) (form1 form2 : FormData) :
  login_calls (exec (handleSubmit {| currentTarget := form2 |})
                    (exec (handleSubmit {| currentTarget := form1 |}) page))
  = (login_calls page ++ [credentials form1]) ++ [credentials form2].
Proof. reflexivity. Qed.

(** C3, as the code has it.  The guard against a second submission is
    the disabled button, not a check in the handler: from a page whose
    button is enabled, a submission through the button followed by any
    number of further submissions through the button before the call to
    [login] settles makes exactly one call to [login], the one for the
    first form, and leaves exactly that one call in flight, with the
    button disabled under its pending label.  ([handleSubmit] itself
    calls [login] every time it runs, see [handleSubmit_unguarded] and
    [two_submit_events_two_logins].) *)
Theorem pending_submit_is_single (page : Page) (form : FormData)
    (again : list FormData) :
  loading page = false →
  let page' := steps page (UserSubmits form :: (UserSubmits <$> again)) in
  login_calls page' = login_calls page ++ [credentials form]
  ∧ pending page' = pending page ++ [handleSubmit_resumed]
  ∧ button_disabled (render page') = true
  ∧ button_label (render page') = "Logging in...".
Proof.
  intros Hl page'. subst page'. rewrite steps_cons.
  rewrite submit_when_enabled by done.
  rewrite resubmissions_ignored by done. done.
Qed.

(** A truthy error ends the attempt in failure: the message is stored and
    shown as it came, the button is enabled again, nothing navigates. *)
Lemma failure_is_shown (page : Page) (form : FormData) (m : string) :
  loading page = false → m ≠ "" →
  let page' := settled page form {| AuthResult.error := Some m |} in
  error page' = Some m
  ∧ loading page' = false
  ∧ error_paragraph (render page') = Some m
  ∧ button_disabled (render page') = false
  ∧ navigations page' = navigations page.
Proof.
  intros Hl Hm page'. subst page'.
  assert (Js.truthy (Some m) = true) as Ht.
  { simpl. apply negb_true_iff. by apply String.eqb_neq. }
  rewrite settled_failure by done. unfold render. simpl.
  simpl in Ht. by rewrite Ht.
Qed.

(** A [null] error ends the attempt with one full load of [/polls]. *)
Lemma success_navigates (page : Page) (form : FormData) :
  loading page = false →
  navigations (settled page form {| AuthResult.error := None |})
  = navigations page ++ [FullLoad "/polls"].
Proof. intros Hl. by rewrite settled_success. Qed.

(** C4. At the result [{error: ""}], whose error is not [null], the flow
    takes the branch written for success and loads [/polls]. *)
Theorem empty_error_navigates :
  let form := [("email", "a@x.com"); ("password", "wrong")] in
  navigations (settled initial form {| AuthResult.error := Some "" |})
  = [FullLoad "/polls"].
Proof. reflexivity. Qed.

(** C5. At the result [{error: ""}], whose error is not [null], the flow
    does not enter the failed state: no error is stored or shown and the
    button stays disabled. *)
Theorem empty_error_not_failed :
  let form := [("email", "a@x.com"); ("password", "wrong")] in
  let page' := settled initial form {| AuthResult.error := Some "" |} in
  error page' = None
  ∧ loading page' = true
  ∧ error_paragraph (render page') = None
  ∧ button_disabled (render page') = true.
Proof. repeat split; reflexivity. Qed.

(** C10. The success path never enables submission again: from a page at
    rest, the button is disabled once the form is submitted, a [null]
    error leads to the load of [/polls] with [loading] still true, and no
    later event changes that; whatever [login] returns, [loading] is
    reset exactly when the error branch is taken. *)
Theorem success_keeps_submit_disabled (page : Page) (form : FormData) :
  loading page = false → pending page = [] →
  let submitted := step page (UserSubmits form) in
  let succeeded := settled page form {| AuthResult.error := None |} in
  button_disabled (render submitted) = true
  ∧ navigations succeeded = navigations page ++ [FullLoad "/polls"]
  ∧ (∀ evs, loading (steps succeeded evs) = true
            ∧ button_disabled (render (steps succeeded evs)) = true
            ∧ navigations (steps succeeded evs) = navigations succeeded)
  ∧ (∀ result,
       loading (settled page form result)
       = negb (Js.truthy (AuthResult.error result))).
Proof.
  intros Hl Hp submitted succeeded. subst submitted succeeded.
  rewrite submit_when_enabled, settled_success by done.
  split; [done|]. split; [done|]. split.
  - intros evs. by rewrite quiescent.
  - intros result. destruct (Js.truthy (AuthResult.error result)) eqn:Ht.
    + by rewrite settled_failure.
    + by rewrite settled_success.
Qed.

End LoginFlowClaims.

(** ** The claims at concrete inputs *)

Section Scenarios.
Import Supabase AuthActions.

Lemma ownership_guard_exhaustive_witness :
  PollActions.canModify None (poll_of "1") = false
  ∧ PollActions.canModify (viewer "1") (poll_of "2") = false
  ∧ PollActions.canModify (viewer "1") (poll_of "1") = true.
Proof.
  split; [|split].
  - exact (proj1 (proj2 (ownership_guard_exhaustive None (poll_of "1")))
             eq_refl).
  - refine (proj1 (proj2 (proj2
              (ownership_guard_exhaustive (viewer "1") (poll_of "2"))))
              _ eq_refl _).
    discriminate.
  - apply (proj2 (proj2 (proj2
              (ownership_guard_exhaustive (viewer "1") (poll_of "1"))))).
    eexists. split; reflexivity.
Defined.

Lemma delete_requires_confirmation_witness :
  trace PollActions.browser (PollActions.handleDelete (poll_of "1")) cancelling
  = [Invoke (PollActions.confirm PollActions.prompt)].
Proof.
  exact (proj1 (proj2 (proj2 (proj2
           (delete_requires_confirmation PollActions.browser (poll_of "1")
              cancelling))) eq_refl)).
Defined.

Lemma login_result_witness :
  (∃ result,
      run Backend.adapter (login (attempt "wrong")) with_ada
      = (Fulfilled result, with_ada)
      ∧ result = {| AuthResult.error := Some "Invalid login credentials" |})
  ∧ (∃ result after,
      run Backend.adapter (login (attempt "secret")) with_ada
      = (Fulfilled result, after)
      ∧ result = {| AuthResult.error := None |}).
Proof.
  split.
  - destruct (proj1 (login_result Backend.adapter (attempt "wrong") with_ada)
                _ _ _ eq_refl eq_refl) as (result & Hrun & Herr & _).
    exists result. split; [exact Hrun | exact (Herr _ eq_refl)].
  - destruct (proj1 (login_result Backend.adapter (attempt "secret") with_ada)
                _ _ _ eq_refl eq_refl) as (result & Hrun & _ & Hok).
    exists result. eexists. split; [exact Hrun | exact (Hok eq_refl)].
Defined.

Lemma logout_result_witness :
  ∃ result,
    run Backend.adapter logout Backend.empty = (Fulfilled result, Backend.empty)
    ∧ AuthResult.error result = None.
Proof.
  destruct (proj1 (logout_result Backend.adapter Backend.empty)
              _ _ _ eq_refl eq_refl) as (result & Hrun & Hiff & _).
  exists result. split; [exact Hrun | exact (proj2 Hiff eq_refl)].
Defined.

Lemma reads_are_pure_witness :
  run Backend.adapter getCurrentUser with_ada = (Fulfilled None, with_ada)
  ∧ run Backend.adapter AuthActions.getSession with_ada
    = (Fulfilled None, with_ada).
Proof.
  split.
  - exact (proj1 (proj2 (reads_are_pure Backend.adapter with_ada))
             _ eq_refl eq_refl).
  - exact (proj1 (proj2 (proj2 (reads_are_pure Backend.adapter with_ada)))
             _ eq_refl eq_refl).
Defined.

Lemma register_attaches_name_witness :
  ∃ u after,
    run Backend.adapter getCurrentUser after = (Fulfilled (Some u), after)
    ∧ User.user_metadata u !! "name" = Some (Some "Ada").
Proof.
  destruct (proj2 (proj2 (register_attaches_name Backend.adapter ada Backend.empty))
              Backend.empty _ eq_refl) as (email & u & _ & _ & Hname & Hget).
  exists u. eexists. split; [exact Hget | exact Hname].
Defined.

Lemma pending_submit_is_single_witness :
  LoginPage.login_calls
    (LoginPage.steps LoginPage.initial
       [LoginPage.UserSubmits (login_form "secret");
        LoginPage.UserSubmits (login_form "secret")])
  = [attempt "secret"].
Proof.
  exact (proj1 (pending_submit_is_single LoginPage.initial (login_form "secret")
                  [login_form "secret"] eq_refl)).
Defined.

(** C3 as stated fails on [handleSubmit]: two submit events delivered to
    the handler, the second before the first call to [login] has settled,
    make two calls to [login] and leave two handlers parked. *)
Lemma two_submit_events_two_logins :
  let first := {| LoginPage.currentTarget := login_form "secret" |} in
  let second := {| LoginPage.currentTarget := login_form "secret" |} in
  let page := LoginPage.exec (LoginPage.handleSubmit second)
                (LoginPage.exec (LoginPage.handleSubmit first)
                   LoginPage.initial) in
  LoginPage.login_calls page = [attempt "secret"; attempt "secret"]
  ∧ List.length (LoginPage.pending page) = 2
  ∧ LoginPage.navigations page = [].
Proof. repeat split; reflexivity. Qed.

Lemma success_keeps_submit_disabled_witness :
  let succeeded := LoginPage.settled LoginPage.initial (login_form "secret")
                     {| AuthResult.error := None |} in
  LoginPage.loading succeeded = true
  ∧ LoginPage.navigations succeeded = [LoginPage.FullLoad "/polls"].
Proof.
  destruct (success_keeps_submit_disabled LoginPage.initial (login_form "secret")
              eq_refl eq_refl) as (_ & Hnav & Hstay & _).
  split; [exact (proj1 (Hstay [])) | exact Hnav].
Defined.

End Scenarios.

(** * Further properties *)

(** ** The Auth Action Layer: results, calls and rejections *)

Section AuthActionsMore.
Import Supabase AuthActions.
Context {S : Type} (h : Handler E S).

(** X1. [register] hands the provider's verdict on like [login] does:
    when the client is created and the sign-up answers, it returns
    [{error: m}] with [m] the provider's message, unchanged, if the answer
    carries an error and [{error: null}] if not, in the state the sign-up
    left; and every result it returns arises this way. *)
Theorem register_result (data : RegisterFormData.t) (s : S) :
  let credentials :=
    {| signup_email := RegisterFormData.email data;
       signup_password := RegisterFormData.password data;
       options := {| Supabase.data := {[ "name" := RegisterFormData.name data ]} |} |} in
  (∀ s1 response s2,
      h _ createClient s = (Fulfilled (), s1) →
      h _ (signUp credentials) s1 = (Fulfilled response, s2) →
      run h (register data) s
      = (Fulfilled {| AuthResult.error :=
                        AuthError.message <$> auth_error response |}, s2))
  ∧ (∀ result s2,
      run h (register data) s = (Fulfilled result, s2) →
      ∃ s1 response,
        h _ createClient s = (Fulfilled (), s1)
        ∧ h _ (signUp credentials) s1 = (Fulfilled response, s2)
        ∧ AuthResult.error result = AuthError.message <$> auth_error response).
Proof.
  intros credentials. subst credentials. unfold register.
  rewrite run_call. split.
  - intros s1 response s2 ->. rewrite run_call. intros ->.
    by destruct (auth_error response).
  - intros result s2.
    destruct (h _ createClient s) as [[[]|why] s1]; [|done].
    rewrite run_call.
    destruct (h _ (signUp _) s1) as [[response|why] s2'] eqn:Hs; [|done].
    destruct (auth_error response) as [e|] eqn:He; simpl; intros [= <- <-];
      exists s1, response; rewrite Hs, He; done.
Qed.

(** X2. The credential actions reject only when the provider does, and
    with the provider's reason: [login], [register] and [logout] reject
    exactly when the client creation rejects, or the client is created
    and the one call to [supabase.auth] rejects; the reason and the state
    are those of the rejected call.  An error the provider reports in its
    answer is never turned into a rejection. *)
Theorem credential_actions_reject_with_provider
    (login_data : LoginFormData.t) (register_data : RegisterFormData.t)
    (s : S) (why : string) (s' : S) :
  let sign_in := {| signin_email := LoginFormData.email login_data;
                    signin_password := LoginFormData.password login_data |} in
  let sign_up :=
    {| signup_email := RegisterFormData.email register_data;
       signup_password := RegisterFormData.password register_data;
       options :=
         {| Supabase.data := {[ "name" := RegisterFormData.name register_data ]} |} |} in
  let rejected {X} (e : E X) :=
    h _ createClient s = (Rejected why, s')
    ∨ ∃ s1, h _ createClient s = (Fulfilled (), s1)
            ∧ h _ e s1 = (Rejected why, s') in
  (run h (login login_data) s = (Rejected why, s')
     ↔ rejected (signInWithPassword sign_in))
  ∧ (run h (register register_data) s = (Rejected why, s')
     ↔ rejected (signUp sign_up))
  ∧ (run h logout s = (Rejected why, s') ↔ rejected signOut).
Proof.
  intros sign_in sign_up rejected. subst sign_in sign_up rejected.
  unfold login, register, logout. rewrite !run_call.
  destruct (h _ createClient s) as [[[]|why0] s1] eqn:Hc.
  - rewrite !run_call. repeat split.
    + destruct (h _ (signInWithPassword _) s1) as [[response|?] ?] eqn:Hs.
      * by destruct (auth_error response).
      * intros [= <- <-]. right. eauto.
    + intros [[=] | (s1' & [= <-] & Hr)]. by rewrite Hr.
    + destruct (h _ (signUp _) s1) as [[response|?] ?] eqn:Hs.
      * by destruct (auth_error response).
      * intros [= <- <-]. right. eauto.
    + intros [[=] | (s1' & [= <-] & Hr)]. by rewrite Hr.
    + destruct (h _ signOut s1) as [[response|?] ?] eqn:Hs.
      * by destruct (signout_error response).
      * intros [= <- <-]. right. eauto.
    + intros [[=] | (s1' & [= <-] & Hr)]. by rewrite Hr.
  - repeat split; first [ intros [= <- <-]; by left
                        | intros [[= <- <-] | (? & [=] & _)]; done ].
Qed.

(** X3. The reads reject only when the provider does: [getCurrentUser]
    and [getSession] reject exactly when the client creation or the one
    read rejects, with that reason; otherwise they return, even when the
    answer carries an error. *)
Theorem reads_reject_with_provider (s : S) (why : string) (s' : S) :
  let rejected {X} (e : E X) :=
    h _ createClient s = (Rejected why, s')
    ∨ ∃ s1, h _ createClient s = (Fulfilled (), s1)
            ∧ h _ e s1 = (Rejected why, s') in
  (run h getCurrentUser s = (Rejected why, s') ↔ rejected getUser)
  ∧ (run h AuthActions.getSession s = (Rejected why, s')
     ↔ rejected Supabase.getSession).
Proof.
  intros rejected. subst rejected.
  unfold getCurrentUser, AuthActions.getSession. rewrite !run_call.
  destruct (h _ createClient s) as [[[]|why0] s1] eqn:Hc.
  - rewrite !run_call. repeat split.
    + destruct (h _ getUser s1) as [[response|?] ?] eqn:Hs; [done|].
      intros [= <- <-]. right. eauto.
    + intros [[=] | (s1' & [= <-] & Hr)]. by rewrite Hr.
    + destruct (h _ Supabase.getSession s1) as [[response|?] ?] eqn:Hs; [done|].
      intros [= <- <-]. right. eauto.
    + intros [[=] | (s1' & [= <-] & Hr)]. by rewrite Hr.
  - repeat split; first [ intros [= <- <-]; by left
                        | intros [[= <- <-] | (? & [=] & _)]; done ].
Qed.

(** X4. What [login] and [logout] ask of the provider: after creating
    the client, [login] makes one call, the password sign-in, with the
    email and the password exactly as it received them, and [logout] one
    call, the sign-out; when the client creation rejects, neither calls
    [supabase.auth] at all.  Neither ever signs a user up. *)
Theorem login_logout_calls (data : LoginFormData.t) (s : S) :
  let credentials := {| signin_email := LoginFormData.email data;
                        signin_password := LoginFormData.password data |} in
  let after_client (calls : list (Invocation E)) :=
    Invoke createClient ::
    match h _ createClient s with
    | (Fulfilled _, _) => calls
    | (Rejected _, _) => []
    end in
  trace h (login data) s = after_client [Invoke (signInWithPassword credentials)]
  ∧ trace h logout s = after_client [Invoke signOut].
Proof.
  intros credentials after_client. subst credentials after_client.
  unfold login, logout. rewrite !trace_call.
  destruct (h _ createClient s) as [[[]|?] s1]; [|done].
  rewrite !trace_call. split; f_equal; f_equal.
  - destruct (h _ (signInWithPassword _) s1) as [[response|?] ?]; [|done].
    by destruct (auth_error response).
  - destruct (h _ signOut s1) as [[response|?] ?]; [|done].
    by destruct (signout_error response).
Qed.

End AuthActionsMore.

(** ** The login flow: retries, rejections and what stays true *)

Section LoginFlowMore.
Import LoginPage.
Local Open Scope list_scope.

Lemma settle_last_rejected (page : Page) (k : AuthResult.t → Prog E unit)
    (why : string) e l c n :
  step {| error := e; loading := l; login_calls := c;
          pending := pending page ++ [k]; navigations := n |}
       (LoginSettles (List.length (pending page)) (Rejected why))
  = {| error := e; loading := l; login_calls := c;
       pending := pending page; navigations := n |}.
Proof.
  unfold step. cbn [pending error loading login_calls navigations].
  rewrite list_lookup_middle by done.
  replace (delete (List.length (pending page)) (pending page ++ [k]))
    with (pending page); [done|].
  induction (pending page) as [|? ? IH]; simpl; [done | by rewrite <- IH].
Qed.

(** What holds on every page reached from the initial one. *)
Lemma reachable_page (evs : list Event) :
  let page := steps initial evs in
  (pending page = []
   ∨ (pending page = [handleSubmit_resumed] ∧ loading page = true))
  ∧ (navigations page = []
     ∨ (navigations page = [FullLoad "/polls"]
        ∧ loading page = true ∧ pending page = []))
  ∧ (loading page = true → error page = None).
Proof.
  simpl. split; [apply at_most_one_in_flight|].
  induction evs as [|ev evs IH] using rev_ind; [split; [by left | done]|].
  rewrite steps_snoc.
  pose proof (at_most_one_in_flight evs) as Hp. simpl in Hp.
  set (page := steps initial evs) in *.
  destruct IH as [Hn He]. destruct ev as [form|n outcome].
  - destruct (bool_decide (loading page = true)) eqn:Hl.
    + apply bool_decide_eq_true in Hl. by rewrite submit_when_disabled.
    + apply bool_decide_eq_false, not_true_is_false in Hl.
      rewrite submit_when_enabled by done. simpl. split; [|done].
      destruct Hn as [?|(_ & ? & _)]; [by left | congruence].
  - destruct Hp as [Hp | [Hp Hl]]; unfold step; rewrite Hp; [done|].
    destruct n as [|n]; simpl; [|done].
    assert (navigations page = []) as Hnav.
    { destruct Hn as [?|(_ & _ & ?)]; [done | congruence]. }
    destruct outcome as [result|why]; simpl.
    + unfold handleSubmit_resumed.
      destruct (Js.truthy (AuthResult.error result)); simpl.
      * split; [by left | done].
      * rewrite Hnav. split; [by right | auto].
    + split; [by left | auto].
Qed.

(** X5. The page leaves at most once, and only by loading [/polls]
    afresh: on every page reached from the initial one by submissions and
    settlements, either nothing has navigated, or exactly one full load of
    [/polls] has, and then the button is disabled and nothing is in
    flight.  No client-side router push ever happens. *)
Theorem navigates_once_to_polls (evs : list Event) :
  let page := steps initial evs in
  navigations page = []
  ∨ (navigations page = [FullLoad "/polls"]
     ∧ button_disabled (render page) = true
     ∧ pending page = []).
Proof. simpl. by destruct (reachable_page evs) as (_ & [?|?] & _); [left | right]. Qed.

(** X6. One call to [login] in flight at most: on every page reached
    from the initial one, at most one handler is parked, and while one is,
    the button is disabled, with its pending label, and nothing has
    navigated. *)
Theorem one_login_in_flight (evs : list Event) :
  let page := steps initial evs in
  (List.length (pending page) ≤ 1)%nat
  ∧ (pending page ≠ [] →
       button_disabled (render page) = true
       ∧ button_label (render page) = "Logging in..."
       ∧ navigations page = []).
Proof.
  simpl. destruct (reachable_page evs) as ([Hp | [Hp Hl]] & Hn & _);
    rewrite Hp; simpl.
  - split; [lia | done].
  - split; [lia|]. intros _. unfold render; simpl. rewrite Hl.
    destruct Hn as [?|(_ & _ & ?)]; [done | congruence].
Qed.

(** X7. An error is on display only while the form is at rest: on every
    page reached from the initial one, when the error paragraph is
    rendered its text is the stored, non-empty error, the button is
    enabled, no call is in flight and nothing has navigated. *)
Theorem error_shown_only_at_rest (evs : list Event) (m : string) :
  let page := steps initial evs in
  error_paragraph (render page) = Some m →
  error page = Some m
  ∧ m ≠ ""
  ∧ button_disabled (render page) = false
  ∧ pending page = []
  ∧ navigations page = [].
Proof.
  simpl. destruct (reachable_page evs) as (Hp & Hn & He).
  unfold render; simpl.
  destruct (Js.truthy (error (steps initial evs))) eqn:Ht; [|done].
  intros Hm. rewrite Hm in *.
  assert (loading (steps initial evs) = false) as Hl.
  { apply not_true_is_false. intros Hl. by specialize (He Hl). }
  split; [done|]. split.
  { intros ->. done. }
  split; [done|]. split.
  - destruct Hp as [?|[_ ?]]; [done | congruence].
  - destruct Hn as [?|(_ & ? & _)]; [done | congruence].
Qed.

(** X8. The flow can be used again after a failure, and the old error
    does not survive the new attempt: submitting again after a failed
    attempt clears the stored error and hides the paragraph before the
    new call settles, calls [login] a second time with the fields of the
    new form, and a [null] error then loads [/polls]. *)
Theorem retry_after_failure (page : Page) (first second : FormData)
    (m : string) :
  loading page = false → m ≠ "" →
  let failed := settled page first {| AuthResult.error := Some m |} in
  let retrying := step failed (UserSubmits second) in
  let succeeded := settled failed second {| AuthResult.error := None |} in
  error retrying = None
  ∧ error_paragraph (render retrying) = None
  ∧ button_disabled (render retrying) = true
  ∧ login_calls retrying
    = login_calls page ++ [credentials first; credentials second]
  ∧ error succeeded = None
  ∧ navigations succeeded = navigations page ++ [FullLoad "/polls"].
Proof.
  intros Hl Hm failed retrying succeeded. subst failed retrying succeeded.
  assert (Js.truthy (Some m) = true) as Ht.
  { simpl. apply negb_true_iff. by apply String.eqb_neq. }
  rewrite settled_failure by done.
  rewrite submit_when_enabled, settled_success by done. simpl.
  rewrite <- !app_assoc. done.
Qed.

(** X9. A rejected call leaves the flow stuck: from a page at rest, when
    the call to [login] rejects instead of returning, [handleSubmit] never
    resumes; no error is stored or shown, nothing navigates, [loading]
    stays true, and from then on no event changes the page, so the button
    stays disabled and [login] is never called again. *)
Theorem rejection_leaves_flow_stuck (page : Page) (form : FormData)
    (why : string) (evs : list Event) :
  loading page = false → pending page = [] →
  let stuck := steps page [UserSubmits form; LoginSettles 0 (Rejected why)] in
  stuck = {| error := None; loading := true;
             login_calls := login_calls page ++ [credentials form];
             pending := []; navigations := navigations page |}
  ∧ error_paragraph (render stuck) = None
  ∧ button_disabled (render stuck) = true
  ∧ steps stuck evs = stuck.
Proof.
  intros Hl Hp stuck.
  assert (stuck = {| error := None; loading := true;
                     login_calls := login_calls page ++ [credentials form];
                     pending := []; navigations := navigations page |}) as ->.
  { subst stuck. rewrite !steps_cons, submit_when_enabled by done.
    replace 0 with (List.length (pending page)) by by rewrite Hp.
    rewrite settle_last_rejected. by rewrite Hp. }
  split; [done|]. split; [done|]. split; [done|]. by apply quiescent.
Qed.

Lemma FormData_get_None (name : string) (form : FormData) :
  FormData_get name form = None ↔ name ∉ form.*1.
Proof.
  induction form as [|[n v] form IH]; simpl.
  - split; [intros _; apply not_elem_of_nil | done].
  - rewrite not_elem_of_cons. destruct (String.eqb_spec n name) as [->|Hne].
    + split; [done | intros [? _]; done].
    + rewrite IH. split; [intros ?; split; [congruence | done] | intros [_ ?]; done].
Qed.

Lemma FormData_get_first (name v : string) (before after : FormData) :
  name ∉ before.*1 →
  FormData_get name (before ++ (name, v) :: after) = Some v.
Proof.
  induction before as [|[n w] before IH]; simpl.
  - intros _. by rewrite String.eqb_refl.
  - rewrite not_elem_of_cons. intros [Hne ?].
    destruct (String.eqb_spec n name) as [->|_]; [done | by apply IH].
Qed.

(** X10. What [handleSubmit] reads from the form: the call to [login]
    carries, for [email] and for [password], the value of the first form
    entry of that name, unchanged; when the form has no entry of that
    name the field is [null], not an empty string, and the call is made
    all the same. *)
Theorem submitted_fields (page : Page) (form : FormData) :
  loading page = false →
  ∃ data,
    login_calls (step page (UserSubmits form)) = login_calls page ++ [data]
    ∧ (∀ name field,
         (name, field) ∈ [("email", LoginFormData.email data);
                          ("password", LoginFormData.password data)] →
         (name ∉ form.*1 ↔ field = None)
         ∧ (∀ before v after,
              form = before ++ (name, v) :: after → name ∉ before.*1 →
              field = Some v)).
Proof.
  intros Hl. exists (credentials form).
  rewrite submit_when_enabled by done. split; [done|].
  intros name field Hin.
  assert (field = FormData_get name form) as ->.
  { apply elem_of_cons in Hin as [[= -> ->] | Hin]; [done|].
    apply list_elem_of_singleton in Hin as [= -> ->]. done. }
  split.
  - by rewrite FormData_get_None.
  - intros before v after -> Hb. by apply FormData_get_first.
Qed.

End LoginFlowMore.

(** ** The page and the action together *)

Section EndToEndMore.
Import LoginPage.
Local Open Scope list_scope.
Context {S : Type} (h : Handler Supabase.E S).

(** X11. One attempt from the form to the screen.  With the button
    disabled nothing happens and the provider is not contacted.  With it
    enabled and the client created, the provider is asked to sign in with
    the form's [email] and [password] entries; if it answers with an
    error whose message is not empty the page stores and shows exactly
    that message, enabled again, without navigating; if it answers
    without error the page loads [/polls] and stays disabled; if the call
    rejects the page stays disabled with no error and no navigation.  The
    provider is left as the sign-in call left it. *)
Theorem attempt_outcome (page : Page) (form : FormData) (s : S) :
  let credentials :=
    {| Supabase.signin_email := FormData_get "email" form;
       Supabase.signin_password := FormData_get "password" form |} in
  let calls := login_calls page ++ [LoginPage.credentials form] in
  (loading page = true → EndToEnd.attempt h form (page, s) = (page, s))
  ∧ (loading page = false →
     ∀ s1, h _ Supabase.createClient s = (Fulfilled (), s1) →
     (∀ response s2 e,
        h _ (Supabase.signInWithPassword credentials) s1
        = (Fulfilled response, s2) →
        Supabase.auth_error response = Some e → AuthError.message e ≠ "" →
        EndToEnd.attempt h form (page, s)
        = ({| error := Some (AuthError.message e); loading := false;
              login_calls := calls; pending := pending page;
              navigations := navigations page |}, s2)
        ∧ error_paragraph (render (EndToEnd.attempt h form (page, s)).1)
          = Some (AuthError.message e))
     ∧ (∀ response s2,
        h _ (Supabase.signInWithPassword credentials) s1
        = (Fulfilled response, s2) →
        Supabase.auth_error response = None →
        EndToEnd.attempt h form (page, s)
        = ({| error := None; loading := true;
              login_calls := calls; pending := pending page;
              navigations := navigations page ++ [FullLoad "/polls"] |}, s2))
     ∧ (∀ why s2,
        h _ (Supabase.signInWithPassword credentials) s1 = (Rejected why, s2) →
        EndToEnd.attempt h form (page, s)
        = ({| error := None; loading := true;
              login_calls := calls; pending := pending page;
              navigations := navigations page |}, s2))).
Proof.
  intros credentials calls. subst credentials calls.
  unfold EndToEnd.attempt. cbn [render button_disabled]. split.
  - by intros ->.
  - intros Hl s1 Hc. rewrite Hl. unfold AuthActions.login.
    rewrite run_call, Hc, run_call. cbn [LoginPage.credentials
      LoginFormData.email LoginFormData.password].
    split; [|split].
    + intros response s2 e -> He Hm. rewrite He. cbn [run].
      assert (Js.truthy (Some (AuthError.message e)) = true) as Ht.
      { simpl. apply negb_true_iff. by apply String.eqb_neq. }
      change (step (step page (UserSubmits form)) ?ev)
        with (steps page [UserSubmits form; ev]).
      fold (settled page form
              {| AuthResult.error := Some (AuthError.message e) |}).
      rewrite settled_failure by done. split; [done|].
      unfold render. simpl. simpl in Ht. by rewrite Ht.
    + intros response s2 -> He. rewrite He. cbn [run].
      change (step (step page (UserSubmits form)) ?ev)
        with (steps page [UserSubmits form; ev]).
      fold (settled page form {| AuthResult.error := None |}).
      by rewrite settled_success.
    + intros why s2 ->. rewrite submit_when_enabled by done.
      by rewrite settle_last_rejected.
Qed.

End EndToEndMore.

(** ** The poll card: what the Delete button does *)

Section DeletionMore.
Import PollActions.
Context {S : Type} (h : Handler E S).

Lemma trace_handleDelete (poll : Poll) (s : S) :
  trace h (handleDelete poll) s
  = Invoke (confirm prompt) ::
    match h _ (confirm prompt) s with
    | (Fulfilled true, s1) =>
        Invoke (deletePoll (id poll)) ::
        match h _ (deletePoll (id poll)) s1 with
        | (Fulfilled _, _) => [Invoke window_location_reload]
        | (Rejected _, _) => []
        end
    | _ => []
    end.
Proof.
  unfold handleDelete. rewrite trace_call. f_equal.
  destruct (h _ (confirm prompt) s) as [[[]|?] s1]; [|done|done].
  rewrite trace_call. f_equal.
  destruct (h _ (deletePoll (id poll)) s1) as [[[]|?] s2]; [|done].
  simpl. by destruct (h _ window_location_reload s2) as [[[]|?] ?].
Qed.

(** X12. Once the prompt is accepted, [handleDelete] deletes the poll it
    was made for, once, and reloads only after the deletion has gone
    through: it calls [deletePoll(poll.id)] and, if that fulfils, reloads
    the page and settles as the reload does; if the deletion rejects,
    [handleDelete] rejects with the same reason and the page is not
    reloaded. *)
Theorem accepted_delete_then_reload (poll : Poll) (s s1 : S) :
  h _ (confirm prompt) s = (Fulfilled true, s1) →
  filter (λ i, is_deletePoll i = true) (trace h (handleDelete poll) s)
  = [Invoke (deletePoll (id poll))]
  ∧ (∀ s2, h _ (deletePoll (id poll)) s1 = (Fulfilled (), s2) →
       trace h (handleDelete poll) s
       = [Invoke (confirm prompt); Invoke (deletePoll (id poll));
          Invoke window_location_reload]
       ∧ run h (handleDelete poll) s = h _ window_location_reload s2)
  ∧ (∀ why s2, h _ (deletePoll (id poll)) s1 = (Rejected why, s2) →
       existsb is_reload (trace h (handleDelete poll) s) = false
       ∧ run h (handleDelete poll) s = (Rejected why, s2)).
Proof.
  intros Hc. rewrite trace_handleDelete, Hc.
  unfold handleDelete. rewrite run_call, Hc, run_call.
  split; [|split].
  - by destruct (h _ (deletePoll (id poll)) s1) as [[[]|?] ?].
  - intros s2 ->. split; [done|]. simpl.
    by destruct (h _ window_location_reload s2) as [[[]|?] ?].
  - by intros why s2 ->.
Qed.

(** X13. The Delete button of a card acts on that card's poll, and only
    its owner has one: whenever the action bar is rendered the viewer
    owns the poll, the Edit link is the card's link followed by [/edit],
    and whatever the surroundings answer, the only [deletePoll] a click
    on Delete can make is the one for this poll's id. *)
Theorem rendered_delete_targets_own_poll (user : option User.t) (poll : Poll)
    (bar : ActionBar) (s : S) :
  Js.rendered (actions (PollActions user poll)) = Some bar →
  canModify user poll = true
  ∧ edit_href bar = (href (PollActions user poll) ++ "/edit")%string
  ∧ (∀ i, i ∈ trace h (delete_onClick bar) s →
          is_deletePoll i = true → i = Invoke (deletePoll (id poll))).
Proof.
  destruct user as [u|]; simpl; [|done].
  destruct (String.eqb (User.id u) (user_id poll)); simpl; [|done].
  intros [= <-]. split; [done|]. split; [done|]. cbn [delete_onClick].
  intros i. rewrite trace_handleDelete.
  destruct (h _ (confirm prompt) s) as [[[]|?] s1];
    [destruct (h _ (deletePoll (id poll)) s1) as [[[]|?] ?]| |];
    rewrite ?elem_of_cons, ?elem_of_nil; intros Hi Hd;
    repeat (destruct Hi as [-> | Hi]; [done || discriminate Hd|]); done.
Qed.

End DeletionMore.

(** ** The further properties at concrete inputs *)

Section MoreScenarios.
Import Supabase AuthActions.

Lemma register_result_witness :
  run Backend.adapter (register ada) with_ada
  = (Fulfilled {| AuthResult.error := Some "User already registered" |},
     with_ada).
Proof.
  exact (proj1 (register_result Backend.adapter ada with_ada)
           _ _ _ eq_refl eq_refl).
Defined.

Lemma error_shown_only_at_rest_witness :
  let page := LoginPage.steps LoginPage.initial
                [LoginPage.UserSubmits (login_form "wrong");
                 LoginPage.LoginSettles 0 (Fulfilled invalid_credentials)] in
  LoginPage.error page = Some "Invalid login credentials"
  ∧ LoginPage.button_disabled (LoginPage.render page) = false.
Proof.
  destruct (error_shown_only_at_rest
              [LoginPage.UserSubmits (login_form "wrong");
               LoginPage.LoginSettles 0 (Fulfilled invalid_credentials)]
              "Invalid login credentials" eq_refl)
    as (Herr & _ & Hbutton & _).
  split; [exact Herr | exact Hbutton].
Defined.

Lemma retry_after_failure_witness :
  let failed := LoginPage.settled LoginPage.initial (login_form "wrong")
                  invalid_credentials in
  LoginPage.login_calls
    (LoginPage.step failed (LoginPage.UserSubmits (login_form "secret")))
  = [attempt "wrong"; attempt "secret"]
  ∧ LoginPage.navigations
      (LoginPage.settled failed (login_form "secret")
         {| AuthResult.error := None |})
    = [LoginPage.FullLoad "/polls"].
Proof.
  assert ("Invalid login credentials" ≠ "") as Hm by discriminate.
  destruct (retry_after_failure LoginPage.initial (login_form "wrong")
              (login_form "secret") "Invalid login credentials" eq_refl Hm)
    as (_ & _ & _ & Hcalls & _ & Hnav).
  split; [exact Hcalls | exact Hnav].
Defined.

Lemma rejection_leaves_flow_stuck_witness :
  let stuck := LoginPage.steps LoginPage.initial
                 [LoginPage.UserSubmits (login_form "secret");
                  LoginPage.LoginSettles 0 (Rejected "fetch failed")] in
  LoginPage.button_disabled (LoginPage.render stuck) = true
  ∧ LoginPage.steps stuck [LoginPage.UserSubmits (login_form "secret")] = stuck.
Proof.
  destruct (rejection_leaves_flow_stuck LoginPage.initial (login_form "secret")
              "fetch failed" [LoginPage.UserSubmits (login_form "secret")]
              eq_refl eq_refl) as (_ & _ & Hbutton & Hstay).
  split; [exact Hbutton | exact Hstay].
Defined.

Lemma submitted_fields_witness :
  ∃ data,
    LoginPage.login_calls
      (LoginPage.step LoginPage.initial
         (LoginPage.UserSubmits [("email", "a@x.com")]))
    = [data]
    ∧ LoginFormData.email data = Some "a@x.com"
    ∧ LoginFormData.password data = None.
Proof.
  destruct (submitted_fields LoginPage.initial [("email", "a@x.com")] eq_refl)
    as (data & Hcalls & Hfields).
  exists data. split; [exact Hcalls|]. split.
  - refine (proj2 (Hfields "email" _ _) [] "a@x.com" [] eq_refl _).
    + apply list_elem_of_here.
    + apply not_elem_of_nil.
  - refine (proj1 (proj1 (Hfields "password" _ _)) _).
    + apply list_elem_of_further, list_elem_of_here.
    + intros Hin. apply list_elem_of_singleton in Hin. discriminate Hin.
Defined.

Lemma attempt_outcome_witness :
  LoginPage.error_paragraph
    (LoginPage.render
       (EndToEnd.attempt Backend.adapter (login_form "wrong")
          (LoginPage.initial, with_ada)).1)
  = Some "Invalid login credentials"
  ∧ LoginPage.navigations
      (EndToEnd.attempt Backend.adapter (login_form "secret")
         (LoginPage.initial, with_ada)).1
    = [LoginPage.FullLoad "/polls"].
Proof.
  split.
  - destruct (proj2 (attempt_outcome Backend.adapter LoginPage.initial
                       (login_form "wrong") with_ada) eq_refl _ eq_refl)
      as (Hfail & _ & _).
    refine (proj2 (Hfail _ _ _ eq_refl eq_refl _)). discriminate.
  - destruct (proj2 (attempt_outcome Backend.adapter LoginPage.initial
                       (login_form "secret") with_ada) eq_refl _ eq_refl)
      as (_ & Hok & _).
    exact (f_equal (λ w, LoginPage.navigations w.1) (Hok _ _ eq_refl eq_refl)).
Defined.

Lemma accepted_delete_then_reload_witness :
  trace PollActions.browser (PollActions.handleDelete (poll_of "1")) accepting
  = [Invoke (PollActions.confirm PollActions.prompt);
     Invoke (PollActions.deletePoll "p7");
     Invoke PollActions.window_location_reload].
Proof.
  destruct (accepted_delete_then_reload PollActions.browser (poll_of "1")
              accepting _ eq_refl) as (_ & Hok & _).
  exact (proj1 (Hok _ eq_refl)).
Defined.

Lemma rendered_delete_targets_own_poll_witness :
  PollActions.canModify (viewer "1") (poll_of "1") = true
  ∧ PollActions.edit_href
      {| PollActions.edit_href := "/polls/p7/edit";
         PollActions.delete_onClick := PollActions.handleDelete (poll_of "1") |}
    = "/polls/p7/edit".
Proof.
  destruct (rendered_delete_targets_own_poll PollActions.browser (viewer "1")
              (poll_of "1")
              {| PollActions.edit_href := "/polls/p7/edit";
                 PollActions.delete_onClick :=
                   PollActions.handleDelete (poll_of "1") |}
              accepting eq_refl) as (Hown & Hedit & _).
  split; [exact Hown | exact Hedit].
Defined.

End MoreScenarios.
